(** * uMedical_voiceNote/voiceprogram.c++ : tone cue and spoken medical note

  The program makes a fixed sequence of calls into the host (the Win32
  [Beep] primitive, the COM runtime, the SAPI voice object and the two
  standard streams).  It is embedded as a finite tree of host requests;
  a host is any state machine answering those requests, and a run records
  every request together with the answer it received. *)

From Stdlib Require Import ZArith List Ascii String Bool Lia.
From ExtLib Require Import Structures.Monad.
Import ListNotations.
Import MonadNotation.

Local Open Scope string_scope.
Local Open Scope list_scope.
Local Open Scope Z_scope.
Local Open Scope monad_scope.

(** ** The host interface used by the program *)

Module Win32.

(** [HRESULT] is a signed 32-bit [long]; [BOOL] is an [int]; object and
    reserved pointers are addresses, [nullptr] being address 0. *)
Definition HRESULT := Z.
Definition BOOL := Z.
Definition ULONG := Z.
Definition DWORD := Z.
Definition ptr := Z.

Definition nullptr : ptr := 0.

(** winerror.h:
    [#define SUCCEEDED(hr) (((HRESULT)(hr)) >= 0)]
    [#define FAILED(hr)    (((HRESULT)(hr)) < 0)] *)
Definition SUCCEEDED (hr : HRESULT) : bool := 0 <=? hr.
Definition FAILED (hr : HRESULT) : bool := hr <? 0.

(** A failure code written as the unsigned 32-bit value of the headers. *)
Definition HRESULT_of_bits (d : Z) : HRESULT :=
  if d <? 2 ^ 31 then d else d - 2 ^ 32.

Definition S_OK : HRESULT := 0.
Definition RPC_E_CHANGED_MODE : HRESULT := HRESULT_of_bits 0x80010106.
Definition REGDB_E_CLASSNOTREG : HRESULT := HRESULT_of_bits 0x80040154.
Definition E_FAIL : HRESULT := HRESULT_of_bits 0x80004005.

(** The class and interface identifiers the program names. *)
Inductive GUID : Set := CLSID_SpVoice | IID_ISpVoice.

(** wtypesbase.h: CLSCTX_ALL is the union of the four server contexts. *)
Definition CLSCTX_INPROC_SERVER : DWORD := 0x1.
Definition CLSCTX_INPROC_HANDLER : DWORD := 0x2.
Definition CLSCTX_LOCAL_SERVER : DWORD := 0x4.
Definition CLSCTX_REMOTE_SERVER : DWORD := 0x10.
Definition CLSCTX_ALL : DWORD :=
  Z.lor CLSCTX_INPROC_SERVER
    (Z.lor CLSCTX_INPROC_HANDLER
       (Z.lor CLSCTX_LOCAL_SERVER CLSCTX_REMOTE_SERVER)).

(** sapi.h, enum SPEAKFLAGS: SPF_IS_XML = (1 << 3). *)
Definition SPF_IS_XML : DWORD := Z.shiftl 1 3.

(** One constructor per host entry point the program calls; the index is
    the type of what the host hands back.  [CoCreateInstance] hands back
    its [HRESULT] together with the value it stored through [ppv].
    [cout line] and [cerr line] stand for [stream << line << std::endl]. *)
Inductive hostE : Type -> Type :=
| Beep (dwFreq dwDuration : DWORD) : hostE BOOL
| CoInitialize (pvReserved : ptr) : hostE HRESULT
| CoCreateInstance (rclsid : GUID) (pUnkOuter : ptr) (dwClsContext : DWORD)
    (riid : GUID) : hostE (HRESULT * ptr)
| Speak (this : ptr) (pwcs : string) (dwFlags : DWORD)
    (pulStreamNumber : ptr) : hostE HRESULT
| Release (this : ptr) : hostE ULONG
| CoUninitialize : hostE unit
| cout (line : string) : hostE unit
| cerr (line : string) : hostE unit.

(** A completed call: the request with the answer it got. *)
Inductive event : Type :=
| EvBeep (dwFreq dwDuration : DWORD) (ret : BOOL)
| EvCoInitialize (pvReserved : ptr) (hr : HRESULT)
| EvCoCreateInstance (rclsid : GUID) (pUnkOuter : ptr) (dwClsContext : DWORD)
    (riid : GUID) (hr : HRESULT) (ppv : ptr)
| EvSpeak (this : ptr) (pwcs : string) (dwFlags : DWORD)
    (pulStreamNumber : ptr) (hr : HRESULT)
| EvRelease (this : ptr) (ret : ULONG)
| EvCoUninitialize
| EvCout (line : string)
| EvCerr (line : string).

Definition observe {X : Type} (e : hostE X) : X -> event :=
  match e in hostE X return X -> event with
  | Beep f d => fun r => EvBeep f d r
  | CoInitialize p => fun hr => EvCoInitialize p hr
  | CoCreateInstance c o x i => fun r => EvCoCreateInstance c o x i (fst r) (snd r)
  | Speak t w f n => fun hr => EvSpeak t w f n hr
  | Release t => fun r => EvRelease t r
  | CoUninitialize => fun _ => EvCoUninitialize
  | cout l => fun _ => EvCout l
  | cerr l => fun _ => EvCerr l
  end.

End Win32.
Export Win32.

(** ** Programs over the host interface *)

Module Prog.

(** A program either returns or issues one request and continues with the
    answer.  The source has no loop and no recursion, so the tree is
    finite. *)
Inductive prog (R : Type) : Type :=
| Ret (r : R)
| Vis {X : Type} (e : hostE X) (k : X -> prog R).
Arguments Ret {R} r.
Arguments Vis {R X} e k.

Fixpoint pbind {A B : Type} (p : prog A) (f : A -> prog B) : prog B :=
  match p with
  | Ret a => f a
  | Vis e k => Vis e (fun x => pbind (k x) f)
  end.

#[export] Instance Monad_prog : Monad prog :=
  {| ret := @Ret; bind := @pbind |}.

Definition call {X : Type} (e : hostE X) : prog X := Vis e Ret.

(** A host: any state type with an answer to every request. *)
Definition handler (S : Type) : Type := forall X : Type, hostE X -> S -> X * S.

(** Running a program against a host from a host state yields the calls
    made, in order, the host state left behind and the returned value. *)
Fixpoint run {S R : Type} (h : handler S) (p : prog R) (s : S)
  : list event * S * R :=
  match p with
  | Ret r => ([], s, r)
  | Vis e k =>
      let '(x, s1) := h _ e s in
      let '(tr, s2, r) := run h (k x) s1 in
      (observe e x :: tr, s2, r)
  end.

Definition trace {S R : Type} (h : handler S) (p : prog R) (s : S) : list event :=
  fst (fst (run h p s)).
Definition final {S R : Type} (h : handler S) (p : prog R) (s : S) : S :=
  snd (fst (run h p s)).
Definition result {S R : Type} (h : handler S) (p : prog R) (s : S) : R :=
  snd (run h p s).

End Prog.
Export Prog.

(** ** The program *)

Module VoiceProgram.

(** [void generateTone() { Beep(18000, 3000); }] *)
Definition generateTone : prog unit :=
  _ <- call (Beep 18000 3000);;
  ret tt.

(** The body of [speakText], returning the value the local [pVoice] holds
    when the function is left (the C++ function itself returns nothing). *)
Definition speakText_frame (text : string) : prog ptr :=
  let pVoice := nullptr in
  hr0 <- call (CoInitialize nullptr);;
  if FAILED hr0 then
    call (cerr "Failed to initialize COM.");;
    ret pVoice
  else
    created <- call (CoCreateInstance CLSID_SpVoice nullptr CLSCTX_ALL IID_ISpVoice);;
    let hr := fst created in
    let pVoice := snd created in
    (if SUCCEEDED hr then
       _ <- call (Speak pVoice text SPF_IS_XML nullptr);;
       _ <- call (Release pVoice);;
       ret tt
     else
       call (cerr "Failed to create SAPI voice instance."));;
    call CoUninitialize;;
    ret pVoice.

(** [void speakText(const std::wstring& text)] *)
Definition speakText (text : string) : prog unit :=
  _ <- speakText_frame text;;
  ret tt.

(** The local [std::wstring voice_to_speak] of [main]; every character of
    the literal is ASCII. *)
Definition voice_to_speak : string :=
  "The patient has been complaining of chest pain for the past week. ECG shows irregular rhythm. Prescribed low dose beta-blocker. Recommended follow-up in 5 days.".

(** [int main()] ; the returned value is the process exit code. *)
Definition main : prog Z :=
  call (cout "Generating 18kHz tone...");;
  generateTone;;
  call (cout "Speaking medical note...");;
  speakText voice_to_speak;;
  ret 0.

End VoiceProgram.
Export VoiceProgram.

(** ** Reading traces *)

Module Trace.

Definition is_Beep (ev : event) : bool :=
  match ev with EvBeep _ _ _ => true | _ => false end.
Definition is_CoInitialize (ev : event) : bool :=
  match ev with EvCoInitialize _ _ => true | _ => false end.
Definition is_CoCreateInstance (ev : event) : bool :=
  match ev with EvCoCreateInstance _ _ _ _ _ _ => true | _ => false end.
Definition is_Speak (ev : event) : bool :=
  match ev with EvSpeak _ _ _ _ _ => true | _ => false end.
Definition is_Release (ev : event) : bool :=
  match ev with EvRelease _ _ => true | _ => false end.
Definition is_CoUninitialize (ev : event) : bool :=
  match ev with EvCoUninitialize => true | _ => false end.
Definition is_Cout (ev : event) : bool :=
  match ev with EvCout _ => true | _ => false end.
Definition is_Cerr (ev : event) : bool :=
  match ev with EvCerr _ => true | _ => false end.

(** A tone-play call with the given frequency and duration. *)
Definition is_tone (f d : DWORD) (ev : event) : bool :=
  match ev with
  | EvBeep f' d' _ => (f' =? f) && (d' =? d)
  | _ => false
  end.

(** A speak call submitting exactly [text]. *)
Definition speaks (text : string) (ev : event) : bool :=
  match ev with
  | EvSpeak _ w _ _ _ => String.eqb w text
  | _ => false
  end.

(** Outcome of the two initialisation steps. *)
Definition init_ok (ev : event) : bool :=
  match ev with EvCoInitialize _ hr => negb (FAILED hr) | _ => false end.
Definition init_fails (ev : event) : bool :=
  match ev with EvCoInitialize _ hr => FAILED hr | _ => false end.
Definition create_ok (ev : event) : bool :=
  match ev with EvCoCreateInstance _ _ _ _ hr _ => SUCCEEDED hr | _ => false end.
Definition create_fails (ev : event) : bool :=
  match ev with EvCoCreateInstance _ _ _ _ hr _ => negb (SUCCEEDED hr) | _ => false end.

(** The call reported success: a non-zero [BOOL] for [Beep], a non-negative
    [HRESULT] for the COM and SAPI calls.  The remaining calls report
    nothing. *)
Definition call_succeeded (ev : event) : bool :=
  match ev with
  | EvBeep _ _ r => negb (r =? 0)
  | EvCoInitialize _ hr => SUCCEEDED hr
  | EvCoCreateInstance _ _ _ _ hr _ => SUCCEEDED hr
  | EvSpeak _ _ _ _ hr => SUCCEEDED hr
  | _ => true
  end.

(** The voice pointer a call goes through, if it goes through one. *)
Definition derefs (ev : event) : option ptr :=
  match ev with
  | EvSpeak p _ _ _ _ => Some p
  | EvRelease p _ => Some p
  | _ => None
  end.
Definition uses_voice (ev : event) : bool :=
  match derefs ev with Some _ => true | None => false end.
Definition null_deref (ev : event) : bool :=
  match derefs ev with Some p => p =? nullptr | None => false end.

(** The documented contract of [CoCreateInstance]: on success [*ppv] is the
    requested interface pointer, on failure [*ppv] is NULL. *)
Definition create_contract (ev : event) : bool :=
  match ev with
  | EvCoCreateInstance _ _ _ _ hr q =>
      if SUCCEEDED hr then negb (q =? nullptr) else q =? nullptr
  | _ => true
  end.

Definition count (f : event -> bool) (tr : list event) : nat :=
  List.length (List.filter f tr).

(** No [g] call happens before the first [f] call. *)
Fixpoint preceded_by (f g : event -> bool) (tr : list event) : bool :=
  match tr with
  | [] => true
  | ev :: tl => if f ev then true else negb (g ev) && preceded_by f g tl
  end.

(** Every use of a voice pointer goes through the object handed out by the
    latest successful creation seen so far ([cur]). *)
Fixpoint uses_own_handle (cur : option ptr) (tr : list event) : bool :=
  match tr with
  | [] => true
  | ev :: tl =>
      match ev with
      | EvCoCreateInstance _ _ _ _ hr q =>
          uses_own_handle (if SUCCEEDED hr then Some q else None) tl
      | _ =>
          match derefs ev, cur with
          | Some p, Some q => (p =? q) && uses_own_handle cur tl
          | Some _, None => false
          | None, _ => uses_own_handle cur tl
          end
      end
  end.

End Trace.
Export Trace.

(** ** Concrete hosts *)

Module Hosts.

(** A host that answers from a fixed script.  Its state is the number of
    voice objects it has handed out; every new object gets a new address. *)
Record script : Set := Script {
  beep_ret : BOOL;
  init_hr : HRESULT;
  create_hr : HRESULT;
  speak_hr : HRESULT
}.

Definition object_base : ptr := 0x1000.

Definition scripted (sc : script) : handler Z :=
  fun X e =>
    match e in hostE X return Z -> X * Z with
    | Beep _ _ => fun n => (beep_ret sc, n)
    | CoInitialize _ => fun n => (init_hr sc, n)
    | CoCreateInstance _ _ _ _ => fun n =>
        if SUCCEEDED (create_hr sc)
        then ((create_hr sc, object_base + n), n + 1)
        else ((create_hr sc, nullptr), n)
    | Speak _ _ _ _ => fun n => (speak_hr sc, n)
    | Release _ => fun n => (0, n)
    | CoUninitialize => fun n => (tt, n)
    | cout _ => fun n => (tt, n)
    | cerr _ => fun n => (tt, n)
    end.

(** The same script without any memory: one address for every object. *)
Definition forgetful (sc : script) : handler unit :=
  fun X e =>
    match e in hostE X return unit -> X * unit with
    | Beep _ _ => fun u => (beep_ret sc, u)
    | CoInitialize _ => fun u => (init_hr sc, u)
    | CoCreateInstance _ _ _ _ => fun u =>
        if SUCCEEDED (create_hr sc)
        then ((create_hr sc, object_base), u)
        else ((create_hr sc, nullptr), u)
    | Speak _ _ _ _ => fun u => (speak_hr sc, u)
    | Release _ => fun u => (0, u)
    | CoUninitialize => fun u => (tt, u)
    | cout _ => fun u => (tt, u)
    | cerr _ => fun u => (tt, u)
    end.

Definition healthy : script := Script 1 S_OK S_OK S_OK.
Definition com_unavailable : script := Script 1 RPC_E_CHANGED_MODE S_OK S_OK.
Definition voice_unavailable : script := Script 1 S_OK REGDB_E_CLASSNOTREG S_OK.
Definition speak_broken : script := Script 0 S_OK S_OK E_FAIL.

End Hosts.
Export Hosts.

(** Two processes started one after the other on the same host. *)
Definition twice {R : Type} (p : prog R) : prog (R * R) :=
  r1 <- p;;
  r2 <- p;;
  ret (r1, r2).

(** The answers of a host do not depend on what it was asked before. *)
Definition history_free {S : Type} (h : handler S) : Prop :=
  forall (X : Type) (e : hostE X) (s s' : S), fst (h X e s) = fst (h X e s').

(** ** The shape of a run *)

(** The three ways through [speakText]: the calls made and the value of the
    local [pVoice] when the function is left. *)
Inductive speakText_path (text : string) : list event -> ptr -> Prop :=
| path_init_failed (hr0 : HRESULT) :
    FAILED hr0 = true ->
    speakText_path text
      [EvCoInitialize nullptr hr0;
       EvCerr "Failed to initialize COM."]
      nullptr
| path_create_failed (hr0 hr : HRESULT) (p : ptr) :
    FAILED hr0 = false ->
    SUCCEEDED hr = false ->
    speakText_path text
      [EvCoInitialize nullptr hr0;
       EvCoCreateInstance CLSID_SpVoice nullptr CLSCTX_ALL IID_ISpVoice hr p;
       EvCerr "Failed to create SAPI voice instance.";
       EvCoUninitialize]
      p
| path_spoken (hr0 hr : HRESULT) (p : ptr) (hs : HRESULT) (n : ULONG) :
    FAILED hr0 = false ->
    SUCCEEDED hr = true ->
    speakText_path text
      [EvCoInitialize nullptr hr0;
       EvCoCreateInstance CLSID_SpVoice nullptr CLSCTX_ALL IID_ISpVoice hr p;
       EvSpeak p text SPF_IS_XML nullptr hs;
       EvRelease p n;
       EvCoUninitialize]
      p.

(** The status lines and the tone that [main] emits before the announcement. *)
Definition main_prelude (b : BOOL) : list event :=
  [EvCout "Generating 18kHz tone...";
   EvBeep 18000 3000 b;
   EvCout "Speaking medical note..."].

(** ** Further readers, the COM usage protocol and repeated runs *)

(** [CoInitialize] answers [S_FALSE] when COM is already initialised on the
    thread: a success code, which the caller has to balance like [S_OK]. *)
Definition S_FALSE : HRESULT := 1.
Definition com_already_up : script := Script 1 S_FALSE S_OK S_OK.

Definition beep_fails (ev : event) : bool :=
  match ev with EvBeep _ _ r => r =? 0 | _ => false end.
Definition speak_fails (ev : event) : bool :=
  match ev with EvSpeak _ _ _ _ hr => FAILED hr | _ => false end.

(** [Speak] is handed [text.c_str()], the address of the buffer of the
    [std::wstring]; the event keeps the characters of that buffer, and the
    callee reads them as a NUL-terminated string, that is up to the first
    NUL. *)
Fixpoint c_str (w : string) : string :=
  match w with
  | EmptyString => EmptyString
  | String c tl =>
      if Ascii.eqb c Ascii.zero then EmptyString else String c (c_str tl)
  end.

Fixpoint nul_free (w : string) : bool :=
  match w with
  | EmptyString => true
  | String c tl => negb (Ascii.eqb c Ascii.zero) && nul_free tl
  end.

(** A speak call whose argument reads as [text], asking for XML parsing and
    nothing else, with no stream-number slot. *)
Definition speak_reads (text : string) (ev : event) : bool :=
  match ev with
  | EvSpeak _ w f n _ =>
      String.eqb (c_str w) text && (f =? 8) && (n =? nullptr)
  | _ => false
  end.

(** What the program owes the COM runtime at a point of a run: nothing,
    one [CoUninitialize], or that and one [Release] of the voice [p]. *)
Inductive com_state : Set :=
| ComDown
| ComUp
| VoiceHeld (p : ptr).

(** One call against the usage rules: [CoInitialize] only when nothing is
    owed, [CoCreateInstance] only with COM up and no voice held, [Speak] and
    [Release] only on the voice held, [CoUninitialize] only with COM up and
    the voice released.  [None] is a violation.  The tone and the two
    streams are not COM calls. *)
Definition com_step (st : com_state) (ev : event) : option com_state :=
  match ev with
  | EvCoInitialize _ hr =>
      match st with
      | ComDown => Some (if FAILED hr then ComDown else ComUp)
      | _ => None
      end
  | EvCoCreateInstance _ _ _ _ hr p =>
      match st with
      | ComUp => Some (if SUCCEEDED hr then VoiceHeld p else ComUp)
      | _ => None
      end
  | EvSpeak q _ _ _ _ =>
      match st with
      | VoiceHeld p => if q =? p then Some (VoiceHeld p) else None
      | _ => None
      end
  | EvRelease q _ =>
      match st with
      | VoiceHeld p => if q =? p then Some ComUp else None
      | _ => None
      end
  | EvCoUninitialize =>
      match st with
      | ComUp => Some ComDown
      | _ => None
      end
  | EvBeep _ _ _ | EvCout _ | EvCerr _ => Some st
  end.

Fixpoint com_run (st : com_state) (tr : list event) : option com_state :=
  match tr with
  | [] => Some st
  | ev :: tl =>
      match com_step st ev with
      | Some st' => com_run st' tl
      | None => None
      end
  end.

(** [n] processes started one after the other on the same host; the list
    holds their exit codes in order. *)
Fixpoint times {R : Type} (n : nat) (p : prog R) : prog (list R) :=
  match n with
  | O => ret []
  | Datatypes.S n' =>
      r <- p;;
      rs <- times n' p;;
      ret (r :: rs)
  end.

(** ** What a run of each function looks like *)

(** On a healthy host the program beeps, speaks the note through the voice
    it created and releases everything. *)
Example run_main_healthy :
  run (scripted healthy) main 0 =
  ([EvCout "Generating 18kHz tone...";
    EvBeep 18000 3000 1;
    EvCout "Speaking medical note...";
    EvCoInitialize nullptr S_OK;
    EvCoCreateInstance CLSID_SpVoice nullptr 23 IID_ISpVoice S_OK 0x1000;
    EvSpeak 0x1000 voice_to_speak 8 nullptr S_OK;
    EvRelease 0x1000 0;
    EvCoUninitialize],
   1, 0).
Proof. reflexivity. Qed.

Example run_main_com_unavailable :
  run (scripted com_unavailable) main 0 =
  ([EvCout "Generating 18kHz tone...";
    EvBeep 18000 3000 1;
    EvCout "Speaking medical note...";
    EvCoInitialize nullptr (-2147417850);
    EvCerr "Failed to initialize COM."],
   0, 0).
Proof. reflexivity. Qed.

Example run_main_voice_unavailable :
  run (scripted voice_unavailable) main 0 =
  ([EvCout "Generating 18kHz tone...";
    EvBeep 18000 3000 1;
    EvCout "Speaking medical note...";
    EvCoInitialize nullptr S_OK;
    EvCoCreateInstance CLSID_SpVoice nullptr 23 IID_ISpVoice (-2147221164) nullptr;
    EvCerr "Failed to create SAPI voice instance.";
    EvCoUninitialize],
   0, 0).
Proof. reflexivity. Qed.

(** A failing [Beep] and a failing [Speak] change nothing in what the
    program does next. *)
Example run_main_speak_broken :
  run (scripted speak_broken) main 0 =
  ([EvCout "Generating 18kHz tone...";
    EvBeep 18000 3000 0;
    EvCout "Speaking medical note...";
    EvCoInitialize nullptr S_OK;
    EvCoCreateInstance CLSID_SpVoice nullptr 23 IID_ISpVoice S_OK 0x1000;
    EvSpeak 0x1000 voice_to_speak 8 nullptr (-2147467259);
    EvRelease 0x1000 0;
    EvCoUninitialize],
   1, 0).
Proof. reflexivity. Qed.

Lemma SUCCEEDED_not_FAILED (hr : HRESULT) : SUCCEEDED hr = negb (FAILED hr).
Proof.
  unfold SUCCEEDED, FAILED.
  destruct (Z.leb_spec 0 hr), (Z.ltb_spec hr 0); simpl; try reflexivity; lia.
Qed.

Lemma count_app (f : event -> bool) (l1 l2 : list event) :
  count f (l1 ++ l2) = (count f l1 + count f l2)%nat.
Proof.
  unfold count. rewrite filter_app, length_app. reflexivity.
Qed.

(** [preceded_by f g tr] says what its name says. *)
Lemma preceded_by_spec (f g : event -> bool) (tr : list event) :
  preceded_by f g tr = true ->
  forall pre ev post,
    tr = pre ++ ev :: post -> g ev = true -> f ev = false ->
    existsb f pre = true.
Proof.
  induction tr as [|a tl IH]; intros Hp pre ev post Heq Hg Hf.
  - destruct pre; discriminate Heq.
  - destruct pre as [|b pre]; simpl in Heq; injection Heq as Ha Htl.
    + subst a. simpl in Hp. rewrite Hf, Hg in Hp. discriminate Hp.
    + subst b. simpl in Hp |- *. destruct (f a) eqn:Hfa; [reflexivity|].
      apply andb_prop in Hp. destruct Hp as [_ Hp].
      simpl. eapply IH; eauto.
Qed.

Section AnyHost.

Variable S : Type.
Variable h : handler S.

(** A run of [p] followed by [f] is a run of [p], then a run of [f] on what
    [p] returned, from the host state [p] left. *)
Lemma run_bind (A B : Type) (p : prog A) (f : A -> prog B) (s : S) :
  run h (bind p f) s =
  (trace h p s ++ trace h (f (result h p s)) (final h p s),
   final h (f (result h p s)) (final h p s),
   result h (f (result h p s)) (final h p s)).
Proof.
  revert s. induction p as [a | X e k IH]; intros s.
  - unfold trace, final, result. simpl.
    destruct (run h (f a) s) as [[tr s'] b]. reflexivity.
  - unfold trace, final, result in *. simpl.
    destruct (h X e s) as [x s1]. specialize (IH x s1). simpl in IH.
    rewrite IH.
    destruct (run h (k x) s1) as [[tr1 s2] a]. simpl.
    reflexivity.
Qed.

Lemma trace_bind (A B : Type) (p : prog A) (f : A -> prog B) (s : S) :
  trace h (bind p f) s =
  trace h p s ++ trace h (f (result h p s)) (final h p s).
Proof. unfold trace at 1. rewrite run_bind. reflexivity. Qed.

Lemma final_bind (A B : Type) (p : prog A) (f : A -> prog B) (s : S) :
  final h (bind p f) s = final h (f (result h p s)) (final h p s).
Proof. unfold final at 1. rewrite run_bind. reflexivity. Qed.

Lemma result_bind (A B : Type) (p : prog A) (f : A -> prog B) (s : S) :
  result h (bind p f) s = result h (f (result h p s)) (final h p s).
Proof. unfold result at 1. rewrite run_bind. reflexivity. Qed.

(** [generateTone] makes the one call [Beep(18000, 3000)]. *)
Lemma generateTone_trace (s : S) :
  trace h generateTone s = [EvBeep 18000 3000 (fst (h _ (Beep 18000 3000) s))].
Proof.
  unfold trace, generateTone. cbn.
  destruct (h _ (Beep 18000 3000) s) as [b s1]. reflexivity.
Qed.

(** Every run of [speakText] follows one of the three paths. *)
Lemma speakText_frame_path (text : string) (s : S) :
  speakText_path text
    (trace h (speakText_frame text) s)
    (result h (speakText_frame text) s).
Proof.
  unfold trace, result, speakText_frame. cbn.
  destruct (h _ (CoInitialize nullptr) s) as [hr0 s1]. cbn.
  destruct (FAILED hr0) eqn:E0; cbn.
  - destruct (h _ (cerr _) s1) as [u s2]. cbn.
    now apply path_init_failed.
  - destruct (h _ (CoCreateInstance _ _ _ _) s1) as [[hr p] s2]. cbn.
    destruct (SUCCEEDED hr) eqn:E1; cbn.
    + destruct (h _ (Speak _ _ _ _) s2) as [hs s3]. cbn.
      destruct (h _ (Release _) s3) as [n s4]. cbn.
      destruct (h _ CoUninitialize s4) as [u s5]. cbn.
      now apply path_spoken.
    + destruct (h _ (cerr _) s2) as [u s3]. cbn.
      destruct (h _ CoUninitialize s3) as [u' s4]. cbn.
      now apply path_create_failed.
Qed.

(** [speakText] makes the calls of its body and returns nothing. *)
Lemma speakText_trace (text : string) (s : S) :
  trace h (speakText text) s = trace h (speakText_frame text) s.
Proof.
  unfold speakText. rewrite trace_bind. cbn. apply app_nil_r.
Qed.

Lemma speakText_path_any (text : string) (s : S) :
  exists pv, speakText_path text (trace h (speakText text) s) pv.
Proof.
  rewrite speakText_trace. eexists. apply speakText_frame_path.
Qed.

(** A run of [main]: the prelude, then a run of [speakText] on the note,
    then exit code 0 with no further call. *)
Lemma main_run (s : S) :
  exists (b : BOOL) (s3 : S),
    trace h main s = main_prelude b ++ trace h (speakText voice_to_speak) s3 /\
    final h main s = final h (speakText voice_to_speak) s3 /\
    result h main s = 0.
Proof.
  unfold trace, final, result, main, generateTone. cbn.
  destruct (h _ (cout _) s) as [u1 s1]. cbn.
  destruct (h _ (Beep _ _) s1) as [b s2]. cbn.
  destruct (h _ (cout _) s2) as [u2 s3]. cbn.
  exists b, s3.
  pose proof (run_bind _ _ (speakText voice_to_speak) (fun _ => ret 0) s3) as Hb.
  cbn in Hb. rewrite Hb. cbn.
  rewrite app_nil_r. repeat split.
Qed.

Lemma main_result (s : S) : result h main s = 0.
Proof.
  destruct (main_run s) as (b & s3 & _ & _ & Hr). exact Hr.
Qed.

End AnyHost.

(** Case analysis on the path a run of [speakText] took. *)
Ltac speak_paths h text s :=
  let pv := fresh "pv" in
  let Hp := fresh "Hp" in
  let Htr := fresh "Htr" in
  destruct (speakText_path_any _ h text s) as [pv Hp];
  inversion Hp as [hr0 F0 Htr | hr0 hr p F0 F1 Htr | hr0 hr p hs n F0 F1 Htr];
  clear Hp; try subst pv; try rewrite <- Htr in *; clear Htr.

(** The same on the body, keeping the final value of [pVoice]. *)
Ltac frame_paths h text s :=
  let Hp := fresh "Hp" in
  pose proof (speakText_frame_path _ h text s) as Hp;
  set (pv := result h (speakText_frame text) s) in *;
  set (tr := trace h (speakText_frame text) s) in *;
  clearbody pv tr;
  destruct Hp as [hr0 F0 | hr0 hr p F0 F1 | hr0 hr p hs n F0 F1].

(** ** The announcement on its own *)

(** C2: whenever the creation of the voice object fails, [speakText] writes
    exactly one line to the error stream, never calls [Speak], still calls
    [CoUninitialize] (once), and returns. *)
Theorem speakText_create_failure (S : Type) (h : handler S) (s : S) (text : string) :
  existsb create_fails (trace h (speakText text) s) = true ->
  (exists hr0 hr p,
     trace h (speakText text) s =
     [EvCoInitialize nullptr hr0;
      EvCoCreateInstance CLSID_SpVoice nullptr CLSCTX_ALL IID_ISpVoice hr p;
      EvCerr "Failed to create SAPI voice instance.";
      EvCoUninitialize]) /\
  count is_Cerr (trace h (speakText text) s) = 1%nat /\
  count is_Speak (trace h (speakText text) s) = 0%nat /\
  count is_CoUninitialize (trace h (speakText text) s) = 1%nat /\
  run h (speakText text) s =
    (trace h (speakText text) s, final h (speakText text) s, tt).
Proof.
  intros Hfail.
  assert (Hret : run h (speakText text) s =
                 (trace h (speakText text) s, final h (speakText text) s, tt)).
  { unfold trace, final. destruct (run h (speakText text) s) as [[tr s'] []].
    reflexivity. }
  revert Hfail. speak_paths h text s; cbn; intros Hfail.
  - discriminate Hfail.
  - repeat split; eauto.
  - rewrite F1 in Hfail. discriminate Hfail.
Qed.

Lemma speakText_create_failure_witness :
  existsb create_fails
    (trace (scripted voice_unavailable) (speakText voice_to_speak) 0) = true /\
  count is_Cerr
    (trace (scripted voice_unavailable) (speakText voice_to_speak) 0) = 1%nat.
Proof.
  split; [reflexivity|].
  apply (speakText_create_failure Z (scripted voice_unavailable) 0 voice_to_speak).
  reflexivity.
Defined.

(** C3: whenever [CoInitialize] fails, [speakText] never calls
    [CoCreateInstance], writes exactly one line to the error stream, never
    calls [Speak], and returns. *)
Theorem speakText_init_failure (S : Type) (h : handler S) (s : S) (text : string) :
  existsb init_fails (trace h (speakText text) s) = true ->
  (exists hr0,
     trace h (speakText text) s =
     [EvCoInitialize nullptr hr0; EvCerr "Failed to initialize COM."]) /\
  count is_CoCreateInstance (trace h (speakText text) s) = 0%nat /\
  count is_Cerr (trace h (speakText text) s) = 1%nat /\
  count is_Speak (trace h (speakText text) s) = 0%nat /\
  run h (speakText text) s =
    (trace h (speakText text) s, final h (speakText text) s, tt).
Proof.
  intros Hfail.
  assert (Hret : run h (speakText text) s =
                 (trace h (speakText text) s, final h (speakText text) s, tt)).
  { unfold trace, final. destruct (run h (speakText text) s) as [[tr s'] []].
    reflexivity. }
  revert Hfail. speak_paths h text s; cbn; intros Hfail.
  - repeat split; eauto.
  - rewrite F0 in Hfail. discriminate Hfail.
  - rewrite F0 in Hfail. discriminate Hfail.
Qed.

Lemma speakText_init_failure_witness :
  existsb init_fails
    (trace (scripted com_unavailable) (speakText voice_to_speak) 0) = true /\
  count is_CoCreateInstance
    (trace (scripted com_unavailable) (speakText voice_to_speak) 0) = 0%nat.
Proof.
  split; [reflexivity|].
  apply (speakText_init_failure Z (scripted com_unavailable) 0 voice_to_speak).
  reflexivity.
Defined.

(** Case analysis on a run of [main]: prelude, then a path of [speakText]. *)
Ltac main_paths h s :=
  let b := fresh "b" in
  let s3 := fresh "s3" in
  let Ht := fresh "Ht" in
  let Hf := fresh "Hf" in
  let Hr := fresh "Hr" in
  destruct (main_run _ h s) as (b & s3 & Ht & Hf & Hr);
  rewrite ?Ht, ?Hr in *;
  speak_paths h voice_to_speak s3.

(** ** The whole program *)

(** C1: when every host call of the run reports success, [main] calls
    [Beep] exactly once, with (18000, 3000), calls [Speak] exactly once,
    with exactly the text of the note, and the exit code is 0. *)
Theorem main_healthy_run (S : Type) (h : handler S) (s : S) :
  forallb call_succeeded (trace h main s) = true ->
  count is_Beep (trace h main s) = 1%nat /\
  count (is_tone 18000 3000) (trace h main s) = 1%nat /\
  count is_Speak (trace h main s) = 1%nat /\
  count
    (speaks
       "The patient has been complaining of chest pain for the past week. ECG shows irregular rhythm. Prescribed low dose beta-blocker. Recommended follow-up in 5 days.")
    (trace h main s) = 1%nat /\
  result h main s = 0.
Proof.
  main_paths h s; cbn; intros Hok.
  - rewrite SUCCEEDED_not_FAILED, F0 in Hok. cbn in Hok.
    rewrite andb_false_r in Hok. discriminate Hok.
  - rewrite F1 in Hok. cbn in Hok.
    rewrite !andb_false_r in Hok. discriminate Hok.
  - repeat split; reflexivity.
Qed.

Lemma main_healthy_run_witness :
  forallb call_succeeded (trace (scripted healthy) main 0) = true /\
  (count is_Beep (trace (scripted healthy) main 0) = 1%nat /\
   count (is_tone 18000 3000) (trace (scripted healthy) main 0) = 1%nat /\
   count is_Speak (trace (scripted healthy) main 0) = 1%nat /\
   count
     (speaks
        "The patient has been complaining of chest pain for the past week. ECG shows irregular rhythm. Prescribed low dose beta-blocker. Recommended follow-up in 5 days.")
     (trace (scripted healthy) main 0) = 1%nat /\
   result (scripted healthy) main 0 = 0).
Proof.
  split; [reflexivity|].
  apply (main_healthy_run Z (scripted healthy) 0).
  reflexivity.
Defined.

(** C4: whatever the host answers to any call, the exit code of [main]
    is 0. *)
Theorem main_exit_code (S : Type) (h : handler S) (s : S) :
  result h main s = 0.
Proof.
  apply main_result.
Qed.

(** C6: in every run [main] emits the tone exactly once, then attempts the
    announcement exactly once (one run of [speakText], which opens with its
    one [CoInitialize]), then exits with nothing further; no [Speak] call
    comes before the tone; what [Beep] and [speakText] return is dropped:
    the program continues in the same way after any answer to [Beep]. *)
Theorem main_tone_then_announcement (S : Type) (h : handler S) (s : S) :
  (exists (b : BOOL) (s3 : S),
     trace h main s = main_prelude b ++ trace h (speakText voice_to_speak) s3 /\
     final h main s = final h (speakText voice_to_speak) s3) /\
  count is_Beep (trace h main s) = 1%nat /\
  count is_CoInitialize (trace h main s) = 1%nat /\
  preceded_by is_Beep is_CoInitialize (trace h main s) = true /\
  preceded_by is_Beep is_Speak (trace h main s) = true /\
  (exists rest : prog Z,
     main = Vis (cout "Generating 18kHz tone...")
              (fun _ => Vis (Beep 18000 3000) (fun _ => rest))) /\
  result h main s = 0.
Proof.
  split.
  { destruct (main_run _ h s) as (b & s3 & Ht & Hf & _). eauto. }
  assert (Hrest : exists rest : prog Z,
             main = Vis (cout "Generating 18kHz tone...")
                      (fun _ => Vis (Beep 18000 3000) (fun _ => rest))).
  { exists (call (cout "Speaking medical note...");;
            speakText voice_to_speak;;
            ret 0).
    reflexivity. }
  main_paths h s; cbn; repeat split; auto.
Qed.

(** C10: in every run the first call of [main] writes the line
    "Generating 18kHz tone..." to standard output, the tone follows, then
    the line "Speaking medical note..." is written, and only then does the
    announcement start with its [CoInitialize]. *)
Theorem main_status_lines (S : Type) (h : handler S) (s : S) :
  exists (b : BOOL) (hr0 : HRESULT) (rest : list event),
    trace h main s =
      [EvCout "Generating 18kHz tone...";
       EvBeep 18000 3000 b;
       EvCout "Speaking medical note...";
       EvCoInitialize nullptr hr0] ++ rest /\
    count is_Cout rest = 0%nat /\
    count is_Beep rest = 0%nat /\
    count is_CoInitialize rest = 0%nat.
Proof.
  main_paths h s; do 3 eexists; (split; [reflexivity|]); cbn; auto.
Qed.

(** ** Acquire and release inside the announcement *)

(** C5, as the code has it: [CoUninitialize] is called once for a
    [CoInitialize] that succeeded and not at all for one that failed;
    [Release] is called once for a voice that was created and not at all
    otherwise, and it goes through the pointer that creation stored, as
    nothing but that voice is ever released; neither call is ever made
    twice, and neither comes before the acquisition it undoes. *)
Theorem speakText_release_balance (S : Type) (h : handler S) (s : S) (text : string) :
  count is_CoUninitialize (trace h (speakText text) s) =
    count init_ok (trace h (speakText text) s) /\
  count is_Release (trace h (speakText text) s) =
    count create_ok (trace h (speakText text) s) /\
  (count is_CoUninitialize (trace h (speakText text) s) <= 1)%nat /\
  (count is_Release (trace h (speakText text) s) <= 1)%nat /\
  preceded_by init_ok is_CoUninitialize (trace h (speakText text) s) = true /\
  preceded_by create_ok is_Release (trace h (speakText text) s) = true /\
  uses_own_handle None (trace h (speakText text) s) = true /\
  (forall (q : ptr) (n : ULONG),
     In (EvRelease q n) (trace h (speakText text) s) ->
     exists hr : HRESULT,
       SUCCEEDED hr = true /\
       In (EvCoCreateInstance CLSID_SpVoice nullptr CLSCTX_ALL IID_ISpVoice hr q)
          (trace h (speakText text) s)).
Proof.
  speak_paths h text s; cbn; rewrite ?F0, ?F1, ?Z.eqb_refl; cbn;
    repeat split; try lia;
    intros q m Hin;
    repeat (destruct Hin as [Hin | Hin]; try discriminate Hin);
    try contradiction.
  injection Hin as Hq _. subst q. exists hr. split; [exact F1 | auto].
Qed.

(** C5 as stated fails where [CoInitialize] fails: [speakText] returns
    early and releases nothing, so "exactly once on every exit path" does
    not hold on that path. *)
Lemma speakText_release_not_on_every_path :
  existsb init_fails
    (trace (scripted com_unavailable) (speakText voice_to_speak) 0) = true /\
  count is_CoUninitialize
    (trace (scripted com_unavailable) (speakText voice_to_speak) 0) <> 1%nat /\
  count is_Release
    (trace (scripted com_unavailable) (speakText voice_to_speak) 0) <> 1%nat.
Proof.
  repeat split; vm_compute; discriminate.
Qed.

(** ** The tone *)

(** C7, as the code has it: [generateTone] takes no tone specification.
    Whatever the host answers, it makes exactly one call, [Beep] with
    frequency 18000 and duration 3000 (both positive), writes nothing to the
    error stream and returns; a tone of any other frequency or duration is
    never played. *)
Theorem generateTone_fixed_tone (S : Type) (h : handler S) (s : S) :
  (exists b : BOOL, trace h generateTone s = [EvBeep 18000 3000 b]) /\
  0 < 18000 /\ 0 < 3000 /\
  (forall f d : DWORD,
     count (is_tone f d) (trace h generateTone s) =
     if (18000 =? f) && (3000 =? d) then 1%nat else 0%nat) /\
  count is_Cerr (trace h generateTone s) = 0%nat /\
  run h generateTone s = (trace h generateTone s, final h generateTone s, tt).
Proof.
  assert (Hret : run h generateTone s =
                 (trace h generateTone s, final h generateTone s, tt)).
  { unfold trace, final. destruct (run h generateTone s) as [[tr s'] []].
    reflexivity. }
  rewrite generateTone_trace in *.
  repeat split; eauto; try lia.
  intros f d. cbv [count is_tone filter].
  destruct ((18000 =? f) && (3000 =? d)); reflexivity.
Qed.

(** C7 as stated fails for any other tone specification, for instance
    440 Hz for one second: no such tone-play call is made. *)
Lemma generateTone_ignores_other_tones :
  0 < 440 /\ 0 < 1000 /\
  count (is_tone 440 1000) (trace (scripted healthy) generateTone 0) <> 1%nat.
Proof.
  repeat split; vm_compute; discriminate.
Qed.

(** ** The voice pointer *)

(** Whatever the host does, [Speak] and [Release] are only ever called after
    a creation that succeeded in the same run, and through the pointer that
    creation stored in [pVoice]. *)
Lemma speakText_uses_created_voice (S : Type) (h : handler S) (s : S) (text : string) :
  uses_own_handle None (trace h (speakText_frame text) s) = true /\
  preceded_by create_ok uses_voice (trace h (speakText_frame text) s) = true /\
  (existsb create_ok (trace h (speakText_frame text) s) = false ->
   count uses_voice (trace h (speakText_frame text) s) = 0%nat).
Proof.
  frame_paths h text s; cbn;
    try rewrite F1; rewrite ?Z.eqb_refl; cbn; repeat split; auto; discriminate.
Qed.

(** C9: with [CoCreateInstance] keeping its contract (an object on
    success, NULL on failure), [Speak] and [Release] are called only after a
    successful creation and on the pointer it returned; on both failure
    paths [pVoice] is still null when [speakText] is left and no call went
    through it; no call ever goes through a null pointer. *)
Theorem speakText_voice_pointer (S : Type) (h : handler S) (s : S) (text : string) :
  forallb create_contract (trace h (speakText_frame text) s) = true ->
  uses_own_handle None (trace h (speakText_frame text) s) = true /\
  preceded_by create_ok uses_voice (trace h (speakText_frame text) s) = true /\
  (existsb create_ok (trace h (speakText_frame text) s) = false ->
   result h (speakText_frame text) s = nullptr /\
   count uses_voice (trace h (speakText_frame text) s) = 0%nat) /\
  existsb null_deref (trace h (speakText_frame text) s) = false.
Proof.
  intros Hc.
  destruct (speakText_uses_created_voice S h s text) as (Hown & Hpre & Hnone).
  split; [exact Hown|]. split; [exact Hpre|]. clear Hown Hpre.
  frame_paths h text s; cbn in *.
  - auto.
  - rewrite F1, andb_true_r in Hc. apply Z.eqb_eq in Hc.
    split; auto.
  - rewrite F1, andb_true_r in Hc. apply negb_true_iff in Hc.
    rewrite F1, Hc. split; [discriminate | reflexivity].
Qed.

Lemma speakText_voice_pointer_witness :
  forallb create_contract
    (trace (scripted healthy) (speakText_frame voice_to_speak) 0) = true /\
  existsb null_deref
    (trace (scripted healthy) (speakText_frame voice_to_speak) 0) = false.
Proof.
  split; [reflexivity|].
  apply (speakText_voice_pointer Z (scripted healthy) 0 voice_to_speak).
  reflexivity.
Defined.

(** ** Two runs in a row *)

Section TwoRuns.

Variable S : Type.
Variable h : handler S.

Lemma twice_run (R : Type) (p : prog R) (s : S) :
  run h (twice p) s =
  (trace h p s ++ trace h p (final h p s),
   final h p (final h p s),
   (result h p s, result h p (final h p s))).
Proof.
  unfold twice. rewrite run_bind, trace_bind, final_bind, result_bind.
  cbn. rewrite app_nil_r. reflexivity.
Qed.

(** On a host whose answers do not depend on its past, a program makes the
    same calls and returns the same value from any host state. *)
Lemma history_free_run (Hfree : history_free h) (R : Type) (p : prog R) :
  forall s s' : S,
    trace h p s = trace h p s' /\ result h p s = result h p s'.
Proof.
  induction p as [r | X e k IH]; intros s s'.
  - split; reflexivity.
  - unfold trace, result in *. simpl.
    pose proof (Hfree X e s s') as Hx.
    destruct (h X e s) as [x s1], (h X e s') as [x' s1']. simpl in Hx. subst x'.
    destruct (IH x s1 s1') as [Ht Hr].
    destruct (run h (k x) s1) as [[tr1 t1] r1],
             (run h (k x) s1') as [[tr2 t2] r2].
    simpl in *. subst. split; reflexivity.
Qed.

(** In any run of [main] the calls through a voice pointer use the object
    created in that run, and there are as many [Speak] calls as successful
    creations. *)
Lemma main_speaks_when_created (s : S) :
  uses_own_handle None (trace h main s) = true /\
  count is_Beep (trace h main s) = 1%nat /\
  count is_Speak (trace h main s) = count create_ok (trace h main s) /\
  (existsb create_ok (trace h main s) = true ->
   count is_Speak (trace h main s) = 1%nat).
Proof.
  main_paths h s; cbn; try rewrite F1; rewrite ?Z.eqb_refl; cbn;
    repeat split; auto; discriminate.
Qed.

End TwoRuns.

(** The script without memory is such a host; the second of two runs on it
    repeats the first, while the counting host hands the second run a new
    object. *)
Lemma forgetful_history_free (sc : script) : history_free (forgetful sc).
Proof.
  intros X e [] []. reflexivity.
Qed.

Example twice_main_fresh_objects :
  trace (scripted healthy) (twice main) 0 =
  trace (scripted healthy) main 0 ++
  [EvCout "Generating 18kHz tone...";
   EvBeep 18000 3000 1;
   EvCout "Speaking medical note...";
   EvCoInitialize nullptr S_OK;
   EvCoCreateInstance CLSID_SpVoice nullptr 23 IID_ISpVoice S_OK 0x1001;
   EvSpeak 0x1001 voice_to_speak 8 nullptr S_OK;
   EvRelease 0x1001 0;
   EvCoUninitialize].
Proof. reflexivity. Qed.

(** On any host, two runs of [main] in a row are a run of [main] followed
    by a fresh run of [main] from the host state the first one left, each
    returning 0.  Together they make exactly two [Beep] calls and one
    [Speak] call per successful voice creation.  In each run the voice calls
    go through the object created in that same run.  On a host whose answers
    do not depend on its past, the second run makes the very calls of the
    first. *)
Theorem twice_main (S : Type) (h : handler S) (s : S) :
  trace h (twice main) s = trace h main s ++ trace h main (final h main s) /\
  final h (twice main) s = final h main (final h main s) /\
  result h (twice main) s = (0, 0) /\
  count is_Beep (trace h (twice main) s) = 2%nat /\
  count is_Speak (trace h (twice main) s) =
    count create_ok (trace h (twice main) s) /\
  (existsb create_ok (trace h main s) = true ->
   existsb create_ok (trace h main (final h main s)) = true ->
   count is_Speak (trace h (twice main) s) = 2%nat) /\
  uses_own_handle None (trace h main s) = true /\
  uses_own_handle None (trace h main (final h main s)) = true /\
  (history_free h -> trace h main (final h main s) = trace h main s).
Proof.
  assert (Ht : trace h (twice main) s =
               trace h main s ++ trace h main (final h main s))
    by (unfold trace at 1; rewrite twice_run; reflexivity).
  assert (Hf : final h (twice main) s = final h main (final h main s))
    by (unfold final at 1; rewrite twice_run; reflexivity).
  assert (Hr : result h (twice main) s =
               (result h main s, result h main (final h main s)))
    by (unfold result at 1; rewrite twice_run; reflexivity).
  rewrite Ht, Hf, Hr, !count_app, !main_result.
  destruct (main_speaks_when_created S h s) as (Ho1 & Hb1 & Hs1 & Hc1).
  destruct (main_speaks_when_created S h (final h main s)) as (Ho2 & Hb2 & Hs2 & Hc2).
  do 3 (split; [reflexivity|]).
  split; [rewrite Hb1, Hb2; reflexivity|].
  split; [rewrite Hs1, Hs2; reflexivity|].
  split; [intros H1 H2; rewrite (Hc1 H1), (Hc2 H2); reflexivity|].
  split; [exact Ho1|]. split; [exact Ho2|].
  intros Hfree. apply (history_free_run S h Hfree).
Qed.

(** Where COM cannot be initialised the two runs make two [Beep] calls
    and no [Speak] call at all. *)
Example twice_main_may_not_speak :
  count is_Beep (trace (scripted com_unavailable) (twice main) 0) = 2%nat /\
  count is_Speak (trace (scripted com_unavailable) (twice main) 0) <> 2%nat.
Proof.
  split; vm_compute; [reflexivity | discriminate].
Qed.

(** A run of [main] in which every call reports success, call for call. *)
Lemma main_healthy_trace (S : Type) (h : handler S) (s : S) :
  forallb call_succeeded (trace h main s) = true ->
  exists (b : BOOL) (i c : HRESULT) (p : ptr) (k : HRESULT) (n : ULONG),
    trace h main s =
    [EvCout "Generating 18kHz tone...";
     EvBeep 18000 3000 b;
     EvCout "Speaking medical note...";
     EvCoInitialize nullptr i;
     EvCoCreateInstance CLSID_SpVoice nullptr CLSCTX_ALL IID_ISpVoice c p;
     EvSpeak p
       "The patient has been complaining of chest pain for the past week. ECG shows irregular rhythm. Prescribed low dose beta-blocker. Recommended follow-up in 5 days."
       SPF_IS_XML nullptr k;
     EvRelease p n;
     EvCoUninitialize].
Proof.
  main_paths h s; cbn; intros Hok.
  - rewrite SUCCEEDED_not_FAILED, F0 in Hok. cbn in Hok.
    rewrite andb_false_r in Hok. discriminate Hok.
  - rewrite F1 in Hok. cbn in Hok.
    rewrite !andb_false_r in Hok. discriminate Hok.
  - exists b, hr0, hr, p, hs, n. reflexivity.
Qed.

(** C8: when every host call succeeds, running [main] twice in succession
    makes exactly two tone-play calls and exactly two speak calls.  The
    second run makes the very calls of the first, with the same frequency,
    duration, lines, text and flags, and owes nothing to the first: the
    first run has released its voice and uninitialised COM before the
    second starts, and the second initialises COM again, creates its own
    voice and speaks and releases through the pointer that creation
    stored. *)
Theorem twice_main_healthy (S : Type) (h : handler S) (s : S) :
  forallb call_succeeded (trace h (twice main) s) = true ->
  (exists (b1 : BOOL) (i1 c1 : HRESULT) (p1 : ptr) (k1 : HRESULT) (n1 : ULONG)
          (b2 : BOOL) (i2 c2 : HRESULT) (p2 : ptr) (k2 : HRESULT) (n2 : ULONG),
     trace h (twice main) s =
     [EvCout "Generating 18kHz tone...";
      EvBeep 18000 3000 b1;
      EvCout "Speaking medical note...";
      EvCoInitialize nullptr i1;
      EvCoCreateInstance CLSID_SpVoice nullptr CLSCTX_ALL IID_ISpVoice c1 p1;
      EvSpeak p1
        "The patient has been complaining of chest pain for the past week. ECG shows irregular rhythm. Prescribed low dose beta-blocker. Recommended follow-up in 5 days."
        SPF_IS_XML nullptr k1;
      EvRelease p1 n1;
      EvCoUninitialize] ++
     [EvCout "Generating 18kHz tone...";
      EvBeep 18000 3000 b2;
      EvCout "Speaking medical note...";
      EvCoInitialize nullptr i2;
      EvCoCreateInstance CLSID_SpVoice nullptr CLSCTX_ALL IID_ISpVoice c2 p2;
      EvSpeak p2
        "The patient has been complaining of chest pain for the past week. ECG shows irregular rhythm. Prescribed low dose beta-blocker. Recommended follow-up in 5 days."
        SPF_IS_XML nullptr k2;
      EvRelease p2 n2;
      EvCoUninitialize]) /\
  count is_Beep (trace h (twice main) s) = 2%nat /\
  count (is_tone 18000 3000) (trace h (twice main) s) = 2%nat /\
  count is_Speak (trace h (twice main) s) = 2%nat /\
  count
    (speaks
       "The patient has been complaining of chest pain for the past week. ECG shows irregular rhythm. Prescribed low dose beta-blocker. Recommended follow-up in 5 days.")
    (trace h (twice main) s) = 2%nat /\
  uses_own_handle None (trace h main s) = true /\
  uses_own_handle None (trace h main (final h main s)) = true /\
  result h (twice main) s = (0, 0).
Proof.
  intros Hok.
  assert (Ht : trace h (twice main) s =
               trace h main s ++ trace h main (final h main s))
    by (unfold trace at 1; rewrite twice_run; reflexivity).
  assert (Hr : result h (twice main) s =
               (result h main s, result h main (final h main s)))
    by (unfold result at 1; rewrite twice_run; reflexivity).
  rewrite Ht in Hok. rewrite forallb_app in Hok.
  apply andb_prop in Hok. destruct Hok as [Hok1 Hok2].
  destruct (main_healthy_trace S h s Hok1)
    as (b1 & i1 & c1 & p1 & k1 & n1 & E1).
  destruct (main_healthy_trace S h (final h main s) Hok2)
    as (b2 & i2 & c2 & p2 & k2 & n2 & E2).
  rewrite E1 in Hok1. rewrite E2 in Hok2. cbn in Hok1, Hok2.
  rewrite Ht, Hr, !main_result, E1, E2.
  split.
  { exists b1, i1, c1, p1, k1, n1, b2, i2, c2, p2, k2, n2. reflexivity. }
  apply andb_prop in Hok1. destruct Hok1 as [_ Hok1].
  apply andb_prop in Hok1. destruct Hok1 as [_ Hok1].
  apply andb_prop in Hok1. destruct Hok1 as [Hc1 _].
  apply andb_prop in Hok2. destruct Hok2 as [_ Hok2].
  apply andb_prop in Hok2. destruct Hok2 as [_ Hok2].
  apply andb_prop in Hok2. destruct Hok2 as [Hc2 _].
  cbn. rewrite Hc1, Hc2, !Z.eqb_refl. cbn.
  repeat split.
Qed.

Lemma twice_main_healthy_witness :
  forallb call_succeeded (trace (scripted healthy) (twice main) 0) = true /\
  count is_Beep (trace (scripted healthy) (twice main) 0) = 2%nat /\
  count is_Speak (trace (scripted healthy) (twice main) 0) = 2%nat /\
  result (scripted healthy) (twice main) 0 = (0, 0).
Proof.
  split; [reflexivity|].
  destruct (twice_main_healthy Z (scripted healthy) 0 eq_refl)
    as (_ & Hbeep & _ & Hspeak & _ & _ & _ & Hres).
  split; [exact Hbeep|]. split; [exact Hspeak | exact Hres].
Defined.

(** ** Beyond the claims: what else the three functions show *)

Lemma com_run_app (st : com_state) (l1 l2 : list event) :
  com_run st (l1 ++ l2) =
  match com_run st l1 with
  | Some st' => com_run st' l2
  | None => None
  end.
Proof.
  revert st. induction l1 as [|ev l1 IH]; intros st; simpl.
  - reflexivity.
  - destruct (com_step st ev) as [st'|]; [apply IH | reflexivity].
Qed.

(** X1: on every host and for every text, a run of [speakText] either calls
    [Speak] exactly once or writes exactly one line to the error stream,
    never both and never neither; it speaks exactly when the voice was
    created. *)
Theorem speakText_speaks_or_reports (S : Type) (h : handler S) (s : S) (text : string) :
  (count is_Speak (trace h (speakText text) s) +
   count is_Cerr (trace h (speakText text) s) = 1)%nat /\
  count is_Speak (trace h (speakText text) s) =
    count create_ok (trace h (speakText text) s) /\
  (count is_Speak (trace h (speakText text) s) = 1%nat <->
   existsb create_ok (trace h (speakText text) s) = true).
Proof.
  speak_paths h text s; cbn; try rewrite F1; cbn;
    repeat split; auto; discriminate.
Qed.

(** X2: when [Speak] reports a failure, [speakText] writes nothing to the
    error stream and goes on exactly as after a success: the voice is
    released and COM is uninitialised, in that order, and nothing else
    follows. *)
Theorem speakText_speak_failure_silent (S : Type) (h : handler S) (s : S) (text : string) :
  existsb speak_fails (trace h (speakText text) s) = true ->
  (exists hr0 hr p hs n,
     FAILED hs = true /\
     trace h (speakText text) s =
     [EvCoInitialize nullptr hr0;
      EvCoCreateInstance CLSID_SpVoice nullptr CLSCTX_ALL IID_ISpVoice hr p;
      EvSpeak p text SPF_IS_XML nullptr hs;
      EvRelease p n;
      EvCoUninitialize]) /\
  count is_Cerr (trace h (speakText text) s) = 0%nat /\
  count is_Release (trace h (speakText text) s) = 1%nat /\
  count is_CoUninitialize (trace h (speakText text) s) = 1%nat.
Proof.
  speak_paths h text s; cbn; intros Hfail; try discriminate Hfail.
  rewrite orb_false_r in Hfail.
  repeat split; auto. exists hr0, hr, p, hs, n. split; [exact Hfail | reflexivity].
Qed.

Lemma speakText_speak_failure_silent_witness :
  existsb speak_fails
    (trace (scripted speak_broken) (speakText voice_to_speak) 0) = true /\
  count is_Cerr
    (trace (scripted speak_broken) (speakText voice_to_speak) 0) = 0%nat.
Proof.
  split; [reflexivity|].
  apply (speakText_speak_failure_silent Z (scripted speak_broken) 0 voice_to_speak).
  reflexivity.
Defined.

Lemma c_str_nul_free (w : string) : nul_free w = true -> c_str w = w.
Proof.
  induction w as [|c tl IH]; simpl; intros Hfree.
  - reflexivity.
  - apply andb_prop in Hfree. destruct Hfree as [Hc Htl].
    apply negb_true_iff in Hc. rewrite Hc, (IH Htl). reflexivity.
Qed.

Example c_str_stops_at_nul :
  c_str (String "a"%char (String "b"%char (String Ascii.zero "cd"))) = "ab".
Proof. reflexivity. Qed.

(** X3: [speakText] hands [Speak] the buffer of its text as it is, with the
    flag word 8 (SPF_IS_XML alone) and a null stream-number pointer.  Read
    as the NUL-terminated string it is passed as, the text of every [Speak]
    call is the caller's text up to its first NUL; for a text without NUL,
    the empty one included, it is exactly the caller's text.  There is one
    such call when the voice was created. *)
Theorem speakText_speak_arguments (S : Type) (h : handler S) (s : S) (text : string) :
  count (speak_reads (c_str text)) (trace h (speakText text) s) =
    count is_Speak (trace h (speakText text) s) /\
  (existsb create_ok (trace h (speakText text) s) = true ->
   count (speak_reads (c_str text)) (trace h (speakText text) s) = 1%nat) /\
  (nul_free text = true ->
   count (speak_reads text) (trace h (speakText text) s) =
     count is_Speak (trace h (speakText text) s)).
Proof.
  assert (Hgen :
    count (speak_reads (c_str text)) (trace h (speakText text) s) =
      count is_Speak (trace h (speakText text) s) /\
    (existsb create_ok (trace h (speakText text) s) = true ->
     count (speak_reads (c_str text)) (trace h (speakText text) s) = 1%nat)).
  { speak_paths h text s; cbn; rewrite ?String.eqb_refl; try rewrite F1; cbn;
      split; auto; discriminate. }
  destruct Hgen as [Hall Hone].
  split; [exact Hall|]. split; [exact Hone|].
  intros Hfree. rewrite <- (c_str_nul_free text Hfree) at 1. exact Hall.
Qed.

Lemma speakText_speak_arguments_witness :
  nul_free "ECG shows <emph>irregular</emph> rhythm." = true /\
  count (speak_reads "ECG shows <emph>irregular</emph> rhythm.")
    (trace (scripted healthy)
       (speakText "ECG shows <emph>irregular</emph> rhythm.") 0) = 1%nat.
Proof.
  split; [reflexivity|].
  destruct (speakText_speak_arguments Z (scripted healthy) 0
              "ECG shows <emph>irregular</emph> rhythm.") as (_ & _ & Hfree).
  rewrite (Hfree eq_refl). reflexivity.
Defined.

(** X4: every run of [speakText] keeps to the COM usage rules of
    [com_step] from start to end, and owes the runtime nothing when it
    returns: no voice left unreleased, no initialisation left open, on any
    host and on every path. *)
Theorem speakText_com_protocol (S : Type) (h : handler S) (s : S) (text : string) :
  com_run ComDown (trace h (speakText text) s) = Some ComDown.
Proof.
  speak_paths h text s; cbn; rewrite F0; try rewrite F1; cbn;
    rewrite ?Z.eqb_refl; reflexivity.
Qed.

(** X5: when [CoInitialize] reports success with any code ([S_FALSE]
    included), [speakText] attempts the voice creation exactly once and
    calls [CoUninitialize] exactly once, as its very last call. *)
Theorem speakText_init_success (S : Type) (h : handler S) (s : S) (text : string) :
  existsb init_ok (trace h (speakText text) s) = true ->
  count is_CoCreateInstance (trace h (speakText text) s) = 1%nat /\
  count is_CoUninitialize (trace h (speakText text) s) = 1%nat /\
  last (trace h (speakText text) s) (EvCerr EmptyString) = EvCoUninitialize.
Proof.
  speak_paths h text s; cbn; rewrite F0; cbn; intros Hok;
    try discriminate Hok; repeat split.
Qed.

Lemma speakText_init_success_witness :
  existsb init_ok
    (trace (scripted com_already_up) (speakText voice_to_speak) 0) = true /\
  last (trace (scripted com_already_up) (speakText voice_to_speak) 0)
    (EvCerr EmptyString) = EvCoUninitialize.
Proof.
  split; [reflexivity|].
  apply (speakText_init_success Z (scripted com_already_up) 0 voice_to_speak).
  reflexivity.
Defined.

Section ManyRuns.

Variable S : Type.
Variable h : handler S.

Lemma times_run (R : Type) (n : nat) (p : prog R) (s : S) :
  run h (times (Datatypes.S n) p) s =
  (trace h p s ++ trace h (times n p) (final h p s),
   final h (times n p) (final h p s),
   result h p s :: result h (times n p) (final h p s)).
Proof.
  cbn [times]. rewrite run_bind, trace_bind, final_bind, result_bind.
  cbn. rewrite app_nil_r. reflexivity.
Qed.

(** One run of [main], summed up. *)
Lemma main_summary (s : S) :
  com_run ComDown (trace h main s) = Some ComDown /\
  count is_Beep (trace h main s) = 1%nat /\
  count is_Cout (trace h main s) = 2%nat /\
  (count is_Speak (trace h main s) + count is_Cerr (trace h main s) = 1)%nat /\
  count is_Speak (trace h main s) = count create_ok (trace h main s).
Proof.
  main_paths h s; cbn; rewrite F0; try rewrite F1; cbn;
    rewrite ?Z.eqb_refl; repeat split.
Qed.

End ManyRuns.

(** X6: any number [n] of runs of [main] in a row, on any host: the COM
    usage rules hold across the whole sequence and nothing is owed at the
    end; there are exactly [n] tone calls and [2 n] status lines; every run
    either speaks once or reports one error, so speak calls and error lines
    add up to [n]; there is one speak call per voice created; every exit
    code is 0. *)
Theorem times_main (S : Type) (h : handler S) (n : nat) (s : S) :
  com_run ComDown (trace h (times n main) s) = Some ComDown /\
  count is_Beep (trace h (times n main) s) = n /\
  count is_Cout (trace h (times n main) s) = (2 * n)%nat /\
  (count is_Speak (trace h (times n main) s) +
   count is_Cerr (trace h (times n main) s) = n)%nat /\
  count is_Speak (trace h (times n main) s) =
    count create_ok (trace h (times n main) s) /\
  result h (times n main) s = repeat 0 n.
Proof.
  revert s. induction n as [|n IH]; intros s.
  - repeat split.
  - assert (Ht : trace h (times (Datatypes.S n) main) s =
                 trace h main s ++ trace h (times n main) (final h main s))
      by (unfold trace at 1; rewrite times_run; reflexivity).
    assert (Hr : result h (times (Datatypes.S n) main) s =
                 result h main s :: result h (times n main) (final h main s))
      by (unfold result at 1; rewrite times_run; reflexivity).
    destruct (main_summary S h s) as (Hc & Hb & Ho & He & Hs).
    destruct (IH (final h main s)) as (Hc' & Hb' & Ho' & He' & Hs' & Hr').
    rewrite Ht, Hr, com_run_app, !count_app, Hc, Hc', Hb, Hb', Ho, Ho',
      Hr', main_result.
    repeat split; simpl; lia.
Qed.

(** X7: a [Speak] that reports failure leaves no mark on a run of [main],
    whatever [Beep] reported before it: the run is the one of a healthy
    host, call for call; nothing is written to the error stream, the voice
    that was created is released through its own pointer, COM is
    uninitialised as the last call, and the exit code is 0. *)
Theorem main_silent_failures (S : Type) (h : handler S) (s : S) :
  existsb speak_fails (trace h main s) = true ->
  (exists (b : BOOL) (hr0 hr : HRESULT) (p : ptr) (hs : HRESULT) (n : ULONG),
     FAILED hs = true /\
     trace h main s =
     [EvCout "Generating 18kHz tone...";
      EvBeep 18000 3000 b;
      EvCout "Speaking medical note...";
      EvCoInitialize nullptr hr0;
      EvCoCreateInstance CLSID_SpVoice nullptr CLSCTX_ALL IID_ISpVoice hr p;
      EvSpeak p
        "The patient has been complaining of chest pain for the past week. ECG shows irregular rhythm. Prescribed low dose beta-blocker. Recommended follow-up in 5 days."
        SPF_IS_XML nullptr hs;
      EvRelease p n;
      EvCoUninitialize]) /\
  uses_own_handle None (trace h main s) = true /\
  count is_Cerr (trace h main s) = 0%nat /\
  count is_Speak (trace h main s) = 1%nat /\
  count is_Release (trace h main s) = 1%nat /\
  count is_CoUninitialize (trace h main s) = 1%nat /\
  last (trace h main s) (EvCerr EmptyString) = EvCoUninitialize /\
  result h main s = 0.
Proof.
  main_paths h s; cbn; intros Hspeak;
    rewrite ?orb_false_r in Hspeak; try discriminate Hspeak.
  rewrite F1, Z.eqb_refl. cbn.
  split; [|repeat split].
  exists b, hr0, hr, p, hs, n. split; [exact Hspeak | reflexivity].
Qed.

Lemma main_silent_failures_witness :
  existsb beep_fails (trace (scripted speak_broken) main 0) = true /\
  existsb speak_fails (trace (scripted speak_broken) main 0) = true /\
  count is_Cerr (trace (scripted speak_broken) main 0) = 0%nat /\
  result (scripted speak_broken) main 0 = 0.
Proof.
  split; [reflexivity|]. split; [reflexivity|].
  destruct (main_silent_failures Z (scripted speak_broken) 0 eq_refl)
    as (_ & _ & Hcerr & _ & _ & _ & _ & Hres).
  split; [exact Hcerr | exact Hres].
Defined.
